(** * Authentication views of api.ashes.live: login, logout, password reset

    A shallow embedding of [src/api/views/auth.py].  The four request
    handlers [log_in], [log_out], [request_password_reset] and
    [reset_password] are written in a small state-and-exception monad over
    the SQLAlchemy session they receive; the database is a pair of tables
    (lists of rows), a row object held by a handler is a reference into the
    session's view of the table, and what a handler leaves behind is the
    last committed snapshot. *)

From Stdlib Require Import ZArith NArith Ascii String Lia.
From stdpp Require Import base option list strings gmap.

Local Open Scope string_scope.

(** ** Python strings

    [str] values are modelled as strings of 8-bit characters.  [str.lower]
    maps the letters 'A'..'Z' to 'a'..'z' and leaves every other character
    alone (the ASCII part of Python's lowercasing). *)

Module Str.

Definition is_upper (c : ascii) : bool :=
  ((65 <=? nat_of_ascii c) && (nat_of_ascii c <=? 90))%nat.

Definition lower_char (c : ascii) : ascii :=
  if is_upper c then ascii_of_nat (nat_of_ascii c + 32) else c.

Fixpoint lower (s : string) : string :=
  match s with
  | "" => ""
  | String c s' => String (lower_char c) (lower s')
  end.

(** [s.replace(pat, "")] for a non-empty [pat]: scanning from the left,
    every occurrence of [pat] is dropped.  [skip] counts the characters of
    a matched occurrence that are still to be dropped. *)
Fixpoint remove_from (pat s : string) (skip : nat) : string :=
  match s with
  | "" => ""
  | String c s' =>
      match skip with
      | S k => remove_from pat s' k
      | O =>
          if String.prefix pat s
          then remove_from pat s' (String.length pat - 1)
          else String c (remove_from pat s' 0)
      end
  end.

Definition remove (pat s : string) : string := remove_from pat s 0.

(** [s.lstrip(chars)], [s.rstrip(chars)] and [s.strip(chars)]. *)
Fixpoint lstrip (chars : list ascii) (s : string) : string :=
  match s with
  | "" => ""
  | String c s' => if bool_decide (c ∈ chars) then lstrip chars s' else s
  end.

Definition rstrip (chars : list ascii) (s : string) : string :=
  String.rev (lstrip chars (String.rev s)).

Definition strip (chars : list ascii) (s : string) : string :=
  rstrip chars (lstrip chars s).

(** The characters of a string, for statements about all of them. *)
Fixpoint chars (s : string) : list ascii :=
  match s with
  | "" => []
  | String c s' => c :: chars s'
  end.

End Str.

(** ** UUIDs

    A [uuid.UUID] is its 128-bit integer.  [hex] is the [UUID.hex] property
    (32 lowercase hexadecimal digits, most significant first) and [of_hex]
    the constructor [uuid.UUID(hex=...)]: it drops "urn:" and "uuid:",
    strips braces, drops hyphens, and then wants exactly 32 hexadecimal
    digits.  (The lenient forms of Python's [int(_, 16)] -- a sign, a "0x"
    prefix, underscores, blanks -- are refused here.) *)

Module UUID.

Definition t : Type := N.

Definition in_range (u : t) : Prop := (u < 2 ^ 128)%N.

Definition hex_digit (d : N) : ascii :=
  match d with
  | 0 => "0" | 1 => "1" | 2 => "2" | 3 => "3" | 4 => "4" | 5 => "5"
  | 6 => "6" | 7 => "7" | 8 => "8" | 9 => "9" | 10 => "a" | 11 => "b"
  | 12 => "c" | 13 => "d" | 14 => "e" | _ => "f"
  end%N%char.

Definition lower_hex_digits : list ascii :=
  Str.chars "0123456789abcdef".

(** The value of a hexadecimal digit, in either case, from its character
    code. *)
Definition hex_value (c : ascii) : option N :=
  let code := N_of_ascii c in
  if ((48 <=? code) && (code <=? 57))%N then Some (code - 48)%N
  else if ((97 <=? code) && (code <=? 102))%N then Some (code - 87)%N
  else if ((65 <=? code) && (code <=? 70))%N then Some (code - 55)%N
  else None.

(** ['%0<width>x' % n], for [n < 16 ^ width]. *)
Fixpoint hex_fixed (width : nat) (n : N) : string :=
  match width with
  | O => ""
  | S w => String (hex_digit ((n / 16 ^ N.of_nat w) mod 16)) (hex_fixed w n)
  end.

Definition hex (u : t) : string := hex_fixed 32 u.

Fixpoint parse_hex (acc : N) (s : string) : option N :=
  match s with
  | "" => Some acc
  | String c s' =>
      match hex_value c with
      | Some d => parse_hex (acc * 16 + d) s'
      | None => None
      end
  end.

Definition normalise (s : string) : string :=
  Str.remove "-" (Str.strip ["{"; "}"]%char (Str.remove "uuid:" (Str.remove "urn:" s))).

Definition of_hex (s : string) : option t :=
  let h := normalise s in
  if bool_decide (String.length h = 32%nat) then parse_hex 0 h else None.

End UUID.

(** ** Values that cross the handlers' boundary *)

(** What a JWT claim or a message field can hold in these handlers. *)
Inductive PyValue :=
  | PyNone
  | PyInt (n : Z)
  | PyStr (s : string)
  | PyUUID (u : UUID.t).

(** An aware [datetime] in UTC, as its POSIX timestamp in seconds. *)
Inductive datetime := DateTimeUTC (timestamp : Z).

(** ** Data model *)

(** Modelled from the spec: [api.models.User] is not among the sources.
    Section 3 gives the columns the handlers touch: an identity, an email
    (unique, lowercase), a password hash, a ban flag and a nullable reset
    identifier. *)
Module User.
Record t := mk {
  id : Z;
  email : string;
  password : string;
  is_banned : bool;
  reset_uuid : option UUID.t
}.

Definition set_password (h : string) (u : t) : t :=
  mk (id u) (email u) h (is_banned u) (reset_uuid u).

Definition set_reset_uuid (v : option UUID.t) (u : t) : t :=
  mk (id u) (email u) (password u) (is_banned u) v.
End User.

(** Modelled from the spec: [api.models.UserRevokedToken] is not among the
    sources.  Its three columns are the keyword arguments [log_out] passes. *)
Module UserRevokedToken.
Record t := mk {
  revoked_uuid : UUID.t;
  user_id : Z;
  expires : datetime
}.
End UserRevokedToken.

Record Database := mkDatabase {
  users : list User.t;
  revoked_tokens : list UserRevokedToken.t
}.

(** The SQLAlchemy session of a request: [rows] is its view of the user
    table (the committed rows with the attribute writes not yet committed)
    and [new] the objects added with [session.add] and not yet inserted. *)
Record Session := mkSession {
  rows : list User.t;
  new : list UserRevokedToken.t
}.

Definition open_session (db : Database) : Session := mkSession (users db) [].

(** A [User] object held by a handler: the position of its row in the
    session's view of the table.  Attribute reads and writes go through the
    session, so a read after a write sees the write. *)
Definition UserRef : Type := nat.

(** ** Exceptions

    Modelled from the spec: [api.exceptions] is not among the sources; the
    status codes are those of section 7.  The remaining constructors are the
    Python and SQLAlchemy errors the handlers can run into. *)
Inductive Exception :=
  | CredentialsException (detail : string)
  | BannedUserException
  | NotFoundException (detail : string)
  | APIException (detail : string)
  | IntegrityError
  | ObjectDeletedError
  | KeyError (key : string)
  | TypeError
  | ValueError.

Inductive Result (A : Type) :=
  | Ok (a : A)
  | Raise (e : Exception).
Arguments Ok {A} a.
Arguments Raise {A} e.

(** The HTTP status an exception is answered with (spec, section 7; what
    is not an API exception is a server error). *)
Definition exception_status (e : Exception) : Z :=
  match e with
  | CredentialsException _ => 401
  | BannedUserException => 403
  | NotFoundException _ => 404
  | _ => 500
  end.

Definition status_code {A} (r : Result A) : Z :=
  match r with
  | Ok _ => 200
  | Raise e => exception_status e
  end.

(** ** Requests and responses *)

Record OAuth2PasswordRequestForm := mkForm {
  username : string;
  form_password : string
}.

Record UserEmailIn := mkEmailIn { data_email : string }.
Record UserSetPasswordIn := mkSetPasswordIn { data_password : string }.

Record AuthTokenOut := mkAuthTokenOut {
  access_token : string;
  token_type : string;
  user : option User.t
}.

Record DetailResponse := mkDetail { detail : string }.

Inductive Request :=
  | LogIn (form_data : OAuth2PasswordRequestForm)
  | LogOut (jwt_payload : gmap string PyValue) (current_user : nat)
  | RequestPasswordReset (data : UserEmailIn)
  | ResetPassword (token : UUID.t) (data : UserSetPasswordIn).

Inductive Response :=
  | TokenResponse (out : AuthTokenOut)
  | Detail (out : DetailResponse).

(** A call of [send_message]. *)
Record Message := mkMessage {
  recipient : string;
  template_id : string;
  data : gmap string PyValue
}.

(** Modelled from the spec: [api.environment.settings] is not among the
    sources; these are the settings the handlers and the token issuer
    read. *)
Record Settings := mkSettings {
  debug : bool;
  sendgrid_reset_template : string;
  access_token_expiry : Z
}.

(** ** The world a handler runs in

    [committed] is the durable database and [history] the snapshots it went
    through (newest first): one entry per commit.  [session] is the
    request's SQLAlchemy session.  The rest is the environment: [entropy]
    is the sequence of values [uuid.uuid4()] returns and [drawn] how many
    were taken,
    [mailer] says whether the n-th message handed to the mail service is
    accepted, [outbox] lists the messages handed over (newest first),
    [debug_log] the lines logged at debug level and [now] the clock. *)
Record World := mkWorld {
  committed : Database;
  history : list Database;
  session : Session;
  entropy : nat → UUID.t;
  drawn : nat;
  mailer : nat → bool;
  outbox : list Message;
  debug_log : list string;
  now : Z
}.

Definition with_session (s : Session) (w : World) : World :=
  mkWorld (committed w) (history w) s (entropy w) (drawn w) (mailer w)
          (outbox w) (debug_log w) (now w).

Definition with_commit (db : Database) (w : World) : World :=
  mkWorld db (committed w :: history w) (open_session db) (entropy w)
          (drawn w) (mailer w) (outbox w) (debug_log w) (now w).

Definition with_drawn (n : nat) (w : World) : World :=
  mkWorld (committed w) (history w) (session w) (entropy w) n (mailer w)
          (outbox w) (debug_log w) (now w).

Definition with_outbox (o : list Message) (w : World) : World :=
  mkWorld (committed w) (history w) (session w) (entropy w) (drawn w)
          (mailer w) o (debug_log w) (now w).

Definition with_debug_log (l : list string) (w : World) : World :=
  mkWorld (committed w) (history w) (session w) (entropy w) (drawn w)
          (mailer w) (outbox w) l (now w).

(** ** The handler monad: state, and exceptions that keep the state *)

Definition M (A : Type) : Type := World → Result A * World.

#[global] Instance M_ret : MRet M := λ A a w, (Ok a, w).

#[global] Instance M_bind : MBind M := λ A B f m w,
  match m w with
  | (Ok a, w') => f a w'
  | (Raise e, w') => (Raise e, w')
  end.

Definition raise {A} (e : Exception) : M A := λ w, (Raise e, w).

(** ** The session *)

(** [session.query(User).filter(cond).first()]: the first row of the
    session's view that satisfies [cond], as a reference, or [None]. *)
Definition query_first (cond : User.t → Prop) `{∀ u, Decision (cond u)}
  : M (option UserRef) :=
  λ w, (Ok (fst <$> list_find cond (rows (session w))), w).

(** Reading an attribute of a row object. *)
Definition attr {A} (r : UserRef) (field : User.t → A) : M A :=
  λ w, match rows (session w) !! r with
       | Some u => (Ok (field u), w)
       | None => (Raise ObjectDeletedError, w)
       end.

(** Assigning an attribute of a row object: the session's view changes, the
    database does not until the next commit. *)
Definition setattr (r : UserRef) (update : User.t → User.t) : M unit :=
  λ w, (Ok (), with_session
                 (mkSession (alter update r (rows (session w)))
                            (new (session w))) w).

(** [session.add(revoked_token)]: a pending insert. *)
Definition session_add (tok : UserRevokedToken.t) : M unit :=
  λ w, (Ok (), with_session
                 (mkSession (rows (session w)) (new (session w) ++ [tok])) w).

(** [uuid.uuid4()]. *)
Definition uuid4 : M UUID.t :=
  λ w, (Ok (entropy w (drawn w)), with_drawn (S (drawn w)) w).

(** The clock, in seconds since the epoch. *)
Definition utcnow : M Z := λ w, (Ok (now w), w).

(** [logger.debug(line)]. *)
Definition logger_debug (line : string) : M unit :=
  λ w, (Ok (), with_debug_log (line :: debug_log w) w).

(** Modelled from the spec: [api.utils.email.send_message] is not among the
    sources.  It hands the message to the external mail service and reports
    whether the service took it. *)
Definition send_message (recipient template_id : string)
    (data : gmap string PyValue) : M bool :=
  λ w, (Ok (mailer w (length (outbox w))),
        with_outbox (mkMessage recipient template_id data :: outbox w) w).

(** [d[key]] on a dict. *)
Definition getitem (d : gmap string PyValue) (key : string) : M PyValue :=
  match d !! key with
  | Some v => mret v
  | None => raise (KeyError key)
  end.

(** [dt.datetime.fromtimestamp(ts, tz=dt.timezone.utc)]: defined for the
    years 1 to 9999. *)
Definition min_timestamp : Z := -62135596800.
Definition max_timestamp : Z := 253402300799.

Definition fromtimestamp_utc (ts : PyValue) : M datetime :=
  match ts with
  | PyInt n =>
      if bool_decide (min_timestamp ≤ n ≤ max_timestamp)%Z
      then mret (DateTimeUTC n)
      else raise ValueError
  | _ => raise TypeError
  end.

(** [uuid.UUID(hex=h)]. *)
Definition uuid_of_hex (h : PyValue) : M UUID.t :=
  match h with
  | PyStr s =>
      match UUID.of_hex s with
      | Some u => mret u
      | None => raise ValueError
      end
  | _ => raise TypeError
  end.

(** [str(u)] for a UUID: the hex digits in groups of 8-4-4-4-12. *)
Definition uuid_str (u : UUID.t) : string :=
  let h := UUID.hex u in
  substring 0 8 h ++ "-" ++ substring 8 4 h ++ "-" ++ substring 12 4 h
    ++ "-" ++ substring 16 4 h ++ "-" ++ substring 20 12 h.

Definition str_of_reset (v : option UUID.t) : string :=
  match v with
  | Some u => uuid_str u
  | None => "None"
  end.

Definition py_of_reset (v : option UUID.t) : PyValue :=
  match v with
  | Some u => PyUUID u
  | None => PyNone
  end.

(** Modelled from the spec: [api.depends.get_session] is not among the
    sources.  A request gets a session opened on the committed database, and
    closing the session drops whatever it did not commit. *)
Definition serve {A} (handler : M A) (w : World) : Result A * World :=
  let '(r, w') := handler (with_session (open_session (committed w)) w) in
  (r, with_session (open_session (committed w')) w').

(** The world a request leaves behind when it commits nothing and draws
    [k] UUIDs. *)
Definition idle (k : nat) (w : World) : World :=
  mkWorld (committed w) (history w) (open_session (committed w)) (entropy w)
          (k + drawn w) (mailer w) (outbox w) (debug_log w) (now w).

(** The world a request leaves behind when its one commit stores [db],
    having drawn [k] UUIDs. *)
Definition after_commit (db : Database) (k : nat) (w : World) : World :=
  mkWorld db (committed w :: history w) (open_session db) (entropy w)
          (k + drawn w) (mailer w) (outbox w) (debug_log w) (now w).

(** The world [request_password_reset] leaves behind once it has stored the
    identifier [fresh] in row [i] (then [u']) and handed the message over. *)
Definition reset_message (settings : Settings) (u' : User.t) : Message :=
  mkMessage (User.email u') (sendgrid_reset_template settings)
    (<["reset_token" := py_of_reset (User.reset_uuid u')]>
       {["email" := PyStr (User.email u')]}).

Definition reset_debug_line (email : string) (u' : User.t) : string :=
  "RESET TOKEN FOR " ++ email ++ ": " ++ str_of_reset (User.reset_uuid u').

Definition after_reset_request (settings : Settings) (email : string)
    (i : nat) (u' : User.t) (w : World) : World :=
  let db := mkDatabase (<[i := u']> (users (committed w)))
                       (revoked_tokens (committed w)) in
  mkWorld db (committed w :: history w) (open_session db) (entropy w)
          (S (drawn w)) (mailer w)
          (reset_message settings u' :: outbox w)
          (if negb (mailer w (length (outbox w))) && debug settings
           then reset_debug_line email u' :: debug_log w
           else debug_log w)
          (now w).

(** ** Predicates used in the statements *)

(** The constraints of the data model (spec, section 3): emails are unique
    and stored in lowercase; a pending reset identifier belongs to one
    user. *)
Definition unique_emails (db : Database) : Prop :=
  NoDup (User.email <$> users db).

Definition lowercase_emails (db : Database) : Prop :=
  Forall (λ u, Str.lower (User.email u) = User.email u) (users db).

Definition unique_resets (db : Database) : Prop :=
  NoDup (omap User.reset_uuid (users db)).

(** No user holds the reset identifier [x]: what a draw of [uuid4] is
    expected to satisfy. *)
Definition unused_reset (x : UUID.t) (db : Database) : Prop :=
  Forall (λ u, User.reset_uuid u ≠ Some x) (users db).

(** The row [reset_password] acts on when given the identifier [x]. *)
Definition holder (db : Database) (x : UUID.t) : option nat :=
  fst <$> list_find (λ u, User.reset_uuid u = Some x) (users db).

(** A user has at most one outstanding reset identifier. *)
Definition single_outstanding (db : Database) : Prop :=
  ∀ i x y, holder db x = Some i → holder db y = Some i → x = y.

(** How many rows of the revocation table carry the token id [x]. *)
Definition revocations (db : Database) (x : UUID.t) : nat :=
  length (filter (λ t, UserRevokedToken.revoked_uuid t = x) (revoked_tokens db)).

(** The detail string an error response carries, if the exception has one. *)
Definition error_detail {A} (r : Result A) : option string :=
  match r with
  | Raise (CredentialsException d) | Raise (NotFoundException d)
  | Raise (APIException d) => Some d
  | _ => None
  end.

(** ** A small deployment, for the worked examples

    Toy collaborators (a transparent "hash", a token that shows its jti), three
    accounts and a world over them. *)
Module Demo.

Definition settings : Settings := mkSettings true "d-reset-template" 86400.

Definition generate_password_hash (pw : string) : string := "$toy$" ++ pw.

Definition verify_password (pw hash : string) : bool :=
  bool_decide (hash = generate_password_hash pw).

Definition jwt_encode (claims : gmap string PyValue) : string :=
  match claims !! "jti" with
  | Some (PyStr jti) => "jwt." ++ jti
  | _ => "jwt."
  end.

Definition alice : User.t :=
  User.mk 1 "alice@example.com" (generate_password_hash "secret123") false None.

Definition bob : User.t :=
  User.mk 2 "bob@example.com" (generate_password_hash "hunter2") true (Some 77%N).

Definition carol : User.t :=
  User.mk 3 "carol@example.com" (generate_password_hash "letmein") false (Some 99%N).

Definition db : Database := mkDatabase [alice; bob; carol] [].

(** The same database without Alice's account. *)
Definition db_without_alice : Database := mkDatabase [bob; carol] [].

Definition world_on (database : Database) (delivers : bool) : World :=
  mkWorld database [] (open_session database) (λ n, 1000 + N.of_nat n)%N 0
          (λ _, delivers) [] [] 1700000000.

Definition world (delivers : bool) : World := world_on db delivers.

(** The claims of a token issued to Alice. *)
Definition payload : gmap string PyValue :=
  <["sub" := PyInt 1]>
    (<["jti" := PyStr (UUID.hex 5%N)]> {["exp" := PyInt 1700086400]}).

End Demo.

Section Views.

(** The collaborators outside [src/]: the settings, the password hashing of
    [api.utils.auth], the JWT signing behind the token issuer, and whether
    the table of revoked tokens keys on [revoked_uuid].

    What FastAPI resolves before a handler runs ([get_session],
    [anonymous_required], [login_required], [get_auth_token]) is outside
    [src/] too: the session is the state of the monad, and [log_out] takes
    the decoded claims and the authenticated user those dependencies
    deliver. *)
Variable settings : Settings.
Variable verify_password : string → string → bool.
Variable generate_password_hash : string → string.
Variable jwt_encode : gmap string PyValue → string.
Variable revoked_uuid_is_key : bool.

(** The inserts of a flush, in the order of [session.add]: where
    [revoked_uuid] is a key, inserting a token id the table already holds
    fails. *)
Fixpoint flush_new (table pending : list UserRevokedToken.t)
  : option (list UserRevokedToken.t) :=
  match pending with
  | [] => Some table
  | tok :: rest =>
      if revoked_uuid_is_key
         && bool_decide (UserRevokedToken.revoked_uuid tok
                           ∈ UserRevokedToken.revoked_uuid <$> table)
      then None
      else flush_new (table ++ [tok]) rest
  end.

(** [session.commit()]: the pending writes and inserts become the database
    in one step, recorded as one snapshot of [history]; a failed insert
    raises and rolls the whole transaction back. *)
Definition session_commit : M unit :=
  λ w, match flush_new (revoked_tokens (committed w)) (new (session w)) with
       | Some table => (Ok (), with_commit (mkDatabase (rows (session w)) table) w)
       | None => (Raise IntegrityError, with_session (open_session (committed w)) w)
       end.

(** Modelled from the spec: [api.services.user.access_token_for_user] is not
    among the sources.  Section 4.2: a new random token identifier, claims
    subject = user id, jti = the new identifier, exp = now + the configured
    lifetime, signed; nothing is persisted. *)
Definition token_claims (sub : Z) (jti : UUID.t) (issued : Z)
  : gmap string PyValue :=
  <["sub" := PyInt sub]>
    (<["jti" := PyStr (UUID.hex jti)]>
       {["exp" := PyInt (issued + access_token_expiry settings)]}).

Definition access_token_for_user (user : UserRef) : M string :=
  sub ← attr user User.id;
  jti ← uuid4;
  issued ← utcnow;
  mret (jwt_encode (token_claims sub jti issued)).

(** The token the issuer hands out for the row [u] in the world [w]. *)
Definition issued_token (w : World) (u : User.t) : string :=
  jwt_encode (token_claims (User.id u) (entropy w (drawn w)) (now w)).

(** *** [POST /token]

    [not user or not verify_password(...)] evaluates its right operand only
    for a user that was found. *)
Definition log_in (form_data : OAuth2PasswordRequestForm) : M AuthTokenOut :=
  let email := Str.lower (username form_data) in
  user ← query_first (λ u, User.email u = email);
  match user with
  | None => raise (CredentialsException "Incorrect username or password")
  | Some user =>
      stored ← attr user User.password;
      if negb (verify_password (form_password form_data) stored)
      then raise (CredentialsException "Incorrect username or password")
      else
        banned ← attr user User.is_banned;
        if (banned : bool) then raise BannedUserException
        else
          access_token ← access_token_for_user user;
          row ← attr user (λ u, u);
          mret (mkAuthTokenOut access_token "bearer" (Some row))
  end.

(** *** [DELETE /token] *)
Definition log_out (jwt_payload : gmap string PyValue) (current_user : UserRef)
  : M DetailResponse :=
  exp ← getitem jwt_payload "exp";
  expires_at ← fromtimestamp_utc exp;
  revoked_hex ← getitem jwt_payload "jti";
  revoked_uuid ← uuid_of_hex revoked_hex;
  user_id ← attr current_user User.id;
  session_add (UserRevokedToken.mk revoked_uuid user_id expires_at);;
  session_commit;;
  mret (mkDetail "Token successfully revoked.").

(** *** [POST /reset] *)
Definition request_password_reset (data : UserEmailIn) : M DetailResponse :=
  let email := Str.lower (data_email data) in
  user ← query_first (λ u, User.email u = email);
  match user with
  | None => raise (NotFoundException "No account found for email.")
  | Some user =>
      banned ← attr user User.is_banned;
      if (banned : bool) then raise BannedUserException
      else
        fresh ← uuid4;
        setattr user (User.set_reset_uuid (Some fresh));;
        session_commit;;
        recipient ← attr user User.email;
        reset_token ← attr user User.reset_uuid;
        user_email ← attr user User.email;
        sent ← send_message recipient (sendgrid_reset_template settings)
                 (<["reset_token" := py_of_reset reset_token]>
                    {["email" := PyStr user_email]});
        if negb sent
        then
          (if debug settings
           then
             tok ← attr user User.reset_uuid;
             logger_debug ("RESET TOKEN FOR " ++ email ++ ": " ++ str_of_reset tok)
           else mret ());;
          raise (APIException
                   "Unable to send password reset email; please contact the site owner.")
        else
          mret (mkDetail "A link to reset your password has been sent to your email!")
  end.

(** *** [POST /reset/{token}] *)
Definition reset_password (token : UUID.t) (data : UserSetPasswordIn)
  : M AuthTokenOut :=
  user ← query_first (λ u, User.reset_uuid u = Some token);
  match user with
  | None =>
      raise (NotFoundException
               "Token not found. Please request a new password reset.")
  | Some user =>
      setattr user (User.set_password (generate_password_hash (data_password data)));;
      setattr user (User.set_reset_uuid None);;
      session_commit;;
      access_token ← access_token_for_user user;
      mret (mkAuthTokenOut access_token "bearer" None)
  end.

(** *** The four endpoints as one transition function *)
Definition handle (req : Request) (w : World) : Result Response * World :=
  match req with
  | LogIn form_data =>
      serve (out ← log_in form_data; mret (TokenResponse out)) w
  | LogOut jwt_payload current_user =>
      serve (out ← log_out jwt_payload current_user; mret (Detail out)) w
  | RequestPasswordReset data =>
      serve (out ← request_password_reset data; mret (Detail out)) w
  | ResetPassword token data =>
      serve (out ← reset_password token data; mret (TokenResponse out)) w
  end.

(** *** What the tests do to a user between two requests

    [user.is_banned = True; session.commit()] of [test_banned_user] and
    [test_login_required_banned_user], as a request of its own on the
    database. *)
Definition set_is_banned (b : bool) (u : User.t) : User.t :=
  User.mk (User.id u) (User.email u) (User.password u) b (User.reset_uuid u).

Definition ban_user (user : UserRef) : M unit :=
  setattr user (set_is_banned true);;
  session_commit.

(** [client.post("/v2/token", {"username": ..., "password": ...})] and the
    [response.status_code] the tests compare. *)
Definition post_token (username password : string) (w : World) : Z :=
  status_code (serve (log_in (mkForm username password)) w).1.

(** ** Strings and UUIDs *)

Section StringFacts.

Lemma rev_app_chars s1 s2 :
  Str.chars (String.rev_app s1 s2) = (reverse (Str.chars s1) ++ Str.chars s2)%list.
Proof.
  revert s2. induction s1 as [|c s1 IH]; intros s2; simpl; [done|].
  rewrite IH, reverse_cons. simpl. by rewrite <- app_assoc.
Qed.

Lemma chars_inj s1 s2 : Str.chars s1 = Str.chars s2 → s1 = s2.
Proof.
  revert s2. induction s1 as [|c s1 IH]; intros [|d s2] Heq; simplify_eq/=; [done|].
  f_equal. by apply IH.
Qed.

Lemma rev_chars s : Str.chars (String.rev s) = reverse (Str.chars s).
Proof. unfold String.rev. rewrite rev_app_chars. simpl. by rewrite app_nil_r. Qed.

Lemma rev_involutive s : String.rev (String.rev s) = s.
Proof. apply chars_inj. by rewrite !rev_chars, reverse_involutive. Qed.

Lemma lstrip_absent cs s :
  Forall (λ c, c ∉ cs) (Str.chars s) → Str.lstrip cs s = s.
Proof.
  destruct s as [|c s]; simpl; [done|]. intros Hall.
  apply Forall_cons in Hall as [Hc _]. by rewrite bool_decide_false.
Qed.

Lemma strip_absent cs s :
  Forall (λ c, c ∉ cs) (Str.chars s) → Str.strip cs s = s.
Proof.
  intros Hall. unfold Str.strip, Str.rstrip.
  rewrite (lstrip_absent cs s) by done.
  rewrite lstrip_absent; [apply rev_involutive|].
  rewrite rev_chars. by apply Forall_reverse.
Qed.

Lemma remove_absent p pat s :
  p ∉ Str.chars s → Str.remove (String p pat) s = s.
Proof.
  unfold Str.remove. induction s as [|c s IH]; intros Hp; [done|].
  simpl in Hp. apply not_elem_of_cons in Hp as [Hne Hp].
  cbn [Str.remove_from String.prefix].
  destruct (ascii_dec p c) as [->|_]; [done|]. by rewrite IH.
Qed.

Lemma lower_length s : String.length (Str.lower s) = String.length s.
Proof. induction s as [|c s IH]; simpl; [done|]. by rewrite IH. Qed.

Lemma length_append s1 s2 :
  String.length (s1 ++ s2) = String.length s1 + String.length s2.
Proof. induction s1 as [|c s1 IH]; simpl; [done|]. by rewrite IH. Qed.

Lemma lower_idempotent s : Str.lower (Str.lower s) = Str.lower s.
Proof.
  induction s as [|c s IH]; simpl; [done|]. f_equal; [|done].
  clear. destruct c as [[] [] [] [] [] [] [] []]; reflexivity.
Qed.

End StringFacts.

Section UUIDFacts.

Lemma hex_digit_lower d : UUID.hex_digit d ∈ UUID.lower_hex_digits.
Proof.
  unfold UUID.lower_hex_digits.
  destruct d as [|p]; [set_solver|].
  do 4 (try destruct p as [p|p|]); simpl; set_solver.
Qed.

Lemma hex_value_digit d : (d < 16)%N → UUID.hex_value (UUID.hex_digit d) = Some d.
Proof.
  intros Hd. destruct d as [|p]; [done|].
  do 4 (try destruct p as [p|p|]); try reflexivity; lia.
Qed.

Lemma hex_fixed_length w n : String.length (UUID.hex_fixed w n) = w.
Proof. induction w as [|w IH]; simpl; [done|]. by rewrite IH. Qed.

Lemma hex_fixed_chars w n :
  Forall (λ c, c ∈ UUID.lower_hex_digits) (Str.chars (UUID.hex_fixed w n)).
Proof.
  induction w as [|w IH]; simpl; constructor; [apply hex_digit_lower | done].
Qed.

Lemma parse_hex_fixed w n acc :
  UUID.parse_hex acc (UUID.hex_fixed w n)
  = Some (acc * 16 ^ N.of_nat w + n mod 16 ^ N.of_nat w)%N.
Proof.
  revert acc. induction w as [|w IH]; intros acc.
  - simpl. f_equal. rewrite N.mod_1_r. lia.
  - cbn [UUID.hex_fixed UUID.parse_hex].
    rewrite hex_value_digit by (apply N.mod_lt; lia).
    rewrite IH. f_equal.
    rewrite Nat2N.inj_succ, N.pow_succ_r'.
    rewrite (N.mul_comm 16 (16 ^ N.of_nat w)).
    rewrite (N.Div0.mod_mul_r n (16 ^ N.of_nat w) 16). lia.
Qed.

Lemma lower_hex_digit_plain c :
  c ∈ UUID.lower_hex_digits →
  c ≠ "u"%char ∧ c ≠ "-"%char ∧ c ∉ ["{"; "}"]%char.
Proof.
  unfold UUID.lower_hex_digits. simpl. intros Hc.
  repeat (apply elem_of_cons in Hc as [->|Hc];
          [rewrite !not_elem_of_cons; split_and!; (done || apply not_elem_of_nil)|]).
  by apply elem_of_nil in Hc.
Qed.

Lemma normalise_hex_fixed w n : UUID.normalise (UUID.hex_fixed w n) = UUID.hex_fixed w n.
Proof.
  pose proof (hex_fixed_chars w n) as Hall.
  assert (∀ c, c ∈ Str.chars (UUID.hex_fixed w n) → c ∈ UUID.lower_hex_digits) as Hin.
  { by apply Forall_forall. }
  assert ("u"%char ∉ Str.chars (UUID.hex_fixed w n)) as Hu.
  { intros H. by apply Hin, lower_hex_digit_plain in H as (?&_). }
  assert ("-"%char ∉ Str.chars (UUID.hex_fixed w n)) as Hm.
  { intros H. by apply Hin, lower_hex_digit_plain in H as (_&?&_). }
  unfold UUID.normalise.
  rewrite (remove_absent "u" "rn:") by done.
  rewrite (remove_absent "u" "uid:") by done.
  rewrite strip_absent.
  - by rewrite (remove_absent "-" "").
  - eapply Forall_impl; [exact Hall|]. intros c Hc. by apply lower_hex_digit_plain.
Qed.

(** [uuid.UUID(hex=u.hex) == u]. *)
Lemma of_hex_hex u : UUID.in_range u → UUID.of_hex (UUID.hex u) = Some u.
Proof.
  unfold UUID.in_range, UUID.of_hex, UUID.hex. intros Hu.
  rewrite normalise_hex_fixed, hex_fixed_length, bool_decide_true by done.
  rewrite parse_hex_fixed. f_equal.
  change (16 ^ N.of_nat 32)%N with (2 ^ 128)%N.
  rewrite N.mod_small by done. lia.
Qed.

End UUIDFacts.

(** ** Tables *)

Section TableFacts.

Lemma find_unique {A} (P : A → Prop) `{∀ x, Decision (P x)} (l : list A) i x :
  l !! i = Some x → P x →
  (∀ j y, l !! j = Some y → P y → j = i) →
  list_find P l = Some (i, x).
Proof.
  intros Hi HP Huniq. apply list_find_Some. split_and!; [done..|].
  intros j y Hj Hlt HPy. specialize (Huniq j y Hj HPy). lia.
Qed.

Lemma unique_emails_lookup db i j u v :
  unique_emails db →
  users db !! i = Some u → users db !! j = Some v →
  User.email u = User.email v → i = j.
Proof.
  unfold unique_emails. rewrite NoDup_alt. intros Hnd Hi Hj Heq.
  apply (Hnd i j (User.email u)); rewrite list_lookup_fmap.
  - by rewrite Hi.
  - by rewrite Hj, Heq.
Qed.

Lemma NoDup_omap_lookup {A B} (f : A → option B) (l : list A) i j a b y :
  NoDup (omap f l) →
  l !! i = Some a → l !! j = Some b → f a = Some y → f b = Some y → i = j.
Proof.
  revert i j. induction l as [|c l IH]; intros i j Hnd Hi Hj Ha Hb; [done|].
  simpl in Hnd.
  assert (∀ k z, l !! k = Some z → f z = Some y → y ∈ omap f l) as Hin.
  { intros k z Hk Hz. apply list_elem_of_omap. exists z.
    split; [by eapply list_elem_of_lookup_2|done]. }
  destruct i as [|i], j as [|j]; simplify_eq/=; [done|..].
  - rewrite Ha in Hnd. apply NoDup_cons in Hnd as [Hnotin _].
    destruct Hnotin. by eapply Hin.
  - rewrite Hb in Hnd. apply NoDup_cons in Hnd as [Hnotin _].
    destruct Hnotin. by eapply Hin.
  - f_equal. apply IH; try done.
    destruct (f c); [by apply NoDup_cons in Hnd as [_ ?]|done].
Qed.

Lemma unique_resets_lookup db i j u v x :
  unique_resets db →
  users db !! i = Some u → users db !! j = Some v →
  User.reset_uuid u = Some x → User.reset_uuid v = Some x → i = j.
Proof. unfold unique_resets. apply NoDup_omap_lookup. Qed.

Lemma find_email db i u e :
  unique_emails db → users db !! i = Some u → User.email u = e →
  list_find (λ v, User.email v = e) (users db) = Some (i, u).
Proof.
  intros Hnd Hi He. apply find_unique; [done..|].
  intros j y Hj Hy. eapply unique_emails_lookup; eauto. congruence.
Qed.

Lemma find_reset db i u x :
  unique_resets db → users db !! i = Some u → User.reset_uuid u = Some x →
  list_find (λ v, User.reset_uuid v = Some x) (users db) = Some (i, u).
Proof.
  intros Hnd Hi Hx. apply find_unique; [done..|].
  intros j y Hj Hy. eapply unique_resets_lookup; eauto.
Qed.

Lemma alter_as_insert {A} (f : A → A) (l : list A) i x :
  l !! i = Some x → alter f i l = <[i := f x]> l.
Proof.
  intros Hi. apply list_eq. intros j.
  destruct (decide (i = j)) as [->|Hne].
  - rewrite list_lookup_alter_eq, Hi, list_lookup_insert_eq; [done|].
    by eapply lookup_lt_Some.
  - by rewrite list_lookup_alter_ne, list_lookup_insert_ne.
Qed.

End TableFacts.

(** ** The handlers, equation by equation *)

Ltac unfold_monad :=
  unfold mbind, M_bind, mret, M_ret, raise, query_first, attr, setattr,
    session_add, session_commit, uuid4, utcnow, logger_debug, send_message,
    getitem, UserRef in *.

Ltac crank Hi :=
  repeat (first [ rewrite Hi
                | rewrite (alter_as_insert _ _ _ _ Hi)
                | rewrite list_lookup_insert_eq by done
                | progress cbn ]).

Section Runs.

Lemma log_in_run w form :
  serve (log_in form) w =
  match list_find (λ u, User.email u = Str.lower (username form))
                  (users (committed w)) with
  | None => (Raise (CredentialsException "Incorrect username or password"), idle 0 w)
  | Some (_, u) =>
      if negb (verify_password (form_password form) (User.password u))
      then (Raise (CredentialsException "Incorrect username or password"), idle 0 w)
      else if User.is_banned u
      then (Raise BannedUserException, idle 0 w)
      else (Ok (mkAuthTokenOut (issued_token w u) "bearer" (Some u)), idle 1 w)
  end.
Proof.
  destruct w as [db hist sess ent dr ml ob dl nw].
  unfold serve, log_in, access_token_for_user. unfold_monad. cbn.
  destruct (list_find _ _) as [[i u]|] eqn:Hfind; cbn; [|done].
  apply list_find_Some in Hfind as (Hi & _ & _).
  rewrite !Hi.
  destruct (verify_password _ _); cbn; [|done].
  rewrite Hi. destruct (User.is_banned u); cbn; [done|].
  by repeat (first [rewrite Hi | progress cbn]).
Qed.

Lemma reset_password_run w token data :
  serve (reset_password token data) w =
  match list_find (λ u, User.reset_uuid u = Some token) (users (committed w)) with
  | None =>
      (Raise (NotFoundException
                "Token not found. Please request a new password reset."),
       idle 0 w)
  | Some (i, u) =>
      let u' := User.set_reset_uuid None
                  (User.set_password
                     (generate_password_hash (data_password data)) u) in
      (Ok (mkAuthTokenOut (issued_token w u') "bearer" None),
       after_commit (mkDatabase (<[i := u']> (users (committed w)))
                                (revoked_tokens (committed w))) 1 w)
  end.
Proof.
  destruct w as [db hist sess ent dr ml ob dl nw].
  unfold serve, reset_password, access_token_for_user. unfold_monad. cbn.
  destruct (list_find _ _) as [[i u]|] eqn:Hfind; cbn; [|done].
  apply list_find_Some in Hfind as (Hi & _ & _).
  rewrite !list_lookup_alter_eq, Hi. cbn.
  unfold after_commit, issued_token. cbn.
  rewrite list_alter_alter_eq, (alter_as_insert _ _ _ _ Hi). done.
Qed.

Lemma request_password_reset_run w data :
  serve (request_password_reset data) w =
  match list_find (λ u, User.email u = Str.lower (data_email data))
                  (users (committed w)) with
  | None => (Raise (NotFoundException "No account found for email."), idle 0 w)
  | Some (i, u) =>
      if User.is_banned u then (Raise BannedUserException, idle 0 w)
      else
        let u' := User.set_reset_uuid (Some (entropy w (drawn w))) u in
        let w' := after_reset_request settings (Str.lower (data_email data)) i u' w in
        if mailer w (length (outbox w))
        then (Ok (mkDetail
                    "A link to reset your password has been sent to your email!"),
              w')
        else (Raise (APIException
                       "Unable to send password reset email; please contact the site owner."),
              w')
  end.
Proof.
  destruct w as [db hist sess ent dr ml ob dl nw].
  unfold serve, request_password_reset. unfold_monad. cbn.
  destruct (list_find _ _) as [[i u]|] eqn:Hfind; cbn; [|done].
  apply list_find_Some in Hfind as (Hi & _ & _).
  assert (i < length (users db)) as Hlt by by eapply lookup_lt_Some.
  rewrite Hi. destruct (User.is_banned u); cbn; [done|].
  unfold after_reset_request, reset_message, reset_debug_line.
  crank Hi.
  destruct (ml (length ob)); cbn; [done|].
  destruct (debug settings); by crank Hi.
Qed.

Lemma log_out_run w payload cur u exp s jti :
  payload !! "exp" = Some (PyInt exp) →
  (min_timestamp ≤ exp ≤ max_timestamp)%Z →
  payload !! "jti" = Some (PyStr s) →
  UUID.of_hex s = Some jti →
  users (committed w) !! cur = Some u →
  serve (log_out payload cur) w =
  if revoked_uuid_is_key
     && bool_decide (jti ∈ UserRevokedToken.revoked_uuid
                           <$> revoked_tokens (committed w))
  then (Raise IntegrityError, idle 0 w)
  else (Ok (mkDetail "Token successfully revoked."),
        after_commit
          (mkDatabase (users (committed w))
             (revoked_tokens (committed w)
                ++ [UserRevokedToken.mk jti (User.id u) (DateTimeUTC exp)]))
          0 w).
Proof.
  intros Hexp Hrange Hjti Hhex Hcur.
  destruct w as [db hist sess ent dr ml ob dl nw].
  unfold serve, log_out, fromtimestamp_utc, uuid_of_hex. unfold_monad. cbn in *.
  rewrite Hexp. cbn. rewrite bool_decide_true by done. cbn.
  rewrite Hjti. cbn. rewrite Hhex. cbn. rewrite Hcur. cbn.
  by destruct (revoked_uuid_is_key && _).
Qed.

Lemma reset_password_found w i u token data :
  unique_resets (committed w) →
  users (committed w) !! i = Some u →
  User.reset_uuid u = Some token →
  serve (reset_password token data) w =
  (Ok (mkAuthTokenOut (issued_token w u) "bearer" None),
   after_commit
     (mkDatabase
        (<[i := User.mk (User.id u) (User.email u)
                        (generate_password_hash (data_password data))
                        (User.is_banned u) None]> (users (committed w)))
        (revoked_tokens (committed w))) 1 w).
Proof.
  intros Huniq Hi Htok. rewrite reset_password_run.
  by rewrite (find_reset _ _ _ _ Huniq Hi Htok).
Qed.

Lemma reset_password_spent w i u u' token data :
  unique_resets (committed w) →
  users (committed w) !! i = Some u →
  User.reset_uuid u = Some token →
  User.reset_uuid u' = None →
  (serve (reset_password token data)
         (after_commit (mkDatabase (<[i := u']> (users (committed w)))
                                   (revoked_tokens (committed w))) 1 w)).1
  = Raise (NotFoundException
             "Token not found. Please request a new password reset.").
Proof.
  intros Huniq Hi Htok Hnone. rewrite reset_password_run. cbn.
  assert (list_find (λ v, User.reset_uuid v = Some token)
                    (<[i := u']> (users (committed w))) = None) as ->; [|done].
  apply list_find_None, Forall_forall. intros v Hv Hheld.
  apply list_elem_of_lookup in Hv as [j Hj].
  destruct (decide (i = j)) as [->|Hne].
  - rewrite list_lookup_insert_eq in Hj by by eapply lookup_lt_Some.
    congruence.
  - rewrite list_lookup_insert_ne in Hj by done.
    destruct Hne. eapply unique_resets_lookup; eauto.
Qed.

End Runs.

(** ** Resetting a password *)

(** C1: a user's pending reset identifier, presented to [reset_password]
    with a new password, is accepted: the response is a token issued in this
    request with [token_type] "bearer"; the database moves in exactly one commit
    to the state where that user's password is the hash of the new password
    and the reset identifier is null; and presenting the same identifier
    again is answered with [NotFoundException] (404). *)
Theorem reset_password_redeems w (i : nat) u token data :
  unique_resets (committed w) →
  users (committed w) !! i = Some u →
  User.reset_uuid u = Some token →
  let u' := User.mk (User.id u) (User.email u)
                    (generate_password_hash (data_password data))
                    (User.is_banned u) None in
  let r := serve (reset_password token data) w in
  r.1 = Ok (mkAuthTokenOut (issued_token w u) "bearer" None)
  ∧ status_code r.1 = 200%Z
  ∧ committed r.2 = mkDatabase (<[i := u']> (users (committed w)))
                               (revoked_tokens (committed w))
  ∧ history r.2 = committed w :: history w
  ∧ drawn r.2 = S (drawn w)
  ∧ ∀ data',
      let again := serve (reset_password token data') r.2 in
      again.1 = Raise (NotFoundException
                         "Token not found. Please request a new password reset.")
      ∧ status_code again.1 = 404%Z.
Proof.
  intros Huniq Hi Htok u' r. subst r.
  rewrite (reset_password_found _ _ _ _ _ Huniq Hi Htok). cbn [fst snd].
  split_and!; try done.
  intros data'. cbn zeta. fold u'.
  by rewrite (reset_password_spent w i u u' token data' Huniq Hi Htok).
Qed.

(** C9: [reset_password] does not look at the ban flag.  A banned user with
    a pending reset identifier gets the same treatment as anyone else: the
    password hash is replaced, the identifier cleared, a token returned; the
    answer is not [BannedUserException] (403). *)
Theorem reset_password_ignores_ban w (i : nat) u token data :
  unique_resets (committed w) →
  users (committed w) !! i = Some u →
  User.reset_uuid u = Some token →
  User.is_banned u = true →
  let r := serve (reset_password token data) w in
  r.1 = Ok (mkAuthTokenOut (issued_token w u) "bearer" None)
  ∧ r.1 ≠ Raise BannedUserException
  ∧ status_code r.1 ≠ 403%Z
  ∧ users (committed r.2) !! i
    = Some (User.mk (User.id u) (User.email u)
                    (generate_password_hash (data_password data)) true None)
  ∧ history r.2 = committed w :: history w.
Proof.
  intros Huniq Hi Htok Hban r. subst r.
  rewrite (reset_password_found _ _ _ _ _ Huniq Hi Htok). cbn.
  rewrite Hban. split_and!; try done.
  apply list_lookup_insert_eq. by eapply lookup_lt_Some.
Qed.

(** ** Logging in *)

Section LogIn.

Lemma log_in_found w form i u :
  unique_emails (committed w) →
  users (committed w) !! i = Some u →
  User.email u = Str.lower (username form) →
  serve (log_in form) w =
  if negb (verify_password (form_password form) (User.password u))
  then (Raise (CredentialsException "Incorrect username or password"), idle 0 w)
  else if User.is_banned u
  then (Raise BannedUserException, idle 0 w)
  else (Ok (mkAuthTokenOut (issued_token w u) "bearer" (Some u)), idle 1 w).
Proof.
  intros Huniq Hi Hmail. rewrite log_in_run.
  by rewrite (find_email _ _ _ _ Huniq Hi Hmail).
Qed.

Lemma log_in_unknown w form :
  (∀ v, v ∈ users (committed w) → User.email v ≠ Str.lower (username form)) →
  serve (log_in form) w =
  (Raise (CredentialsException "Incorrect username or password"), idle 0 w).
Proof.
  intros Hnone. rewrite log_in_run.
  assert (list_find (λ u, User.email u = Str.lower (username form))
                    (users (committed w)) = None) as ->; [|done].
  by apply list_find_None, Forall_forall.
Qed.

Lemma log_in_ok_inv w form out :
  (serve (log_in form) w).1 = Ok out →
  ∃ i u, users (committed w) !! i = Some u
         ∧ User.email u = Str.lower (username form)
         ∧ verify_password (form_password form) (User.password u) = true
         ∧ User.is_banned u = false
         ∧ out = mkAuthTokenOut (issued_token w u) "bearer" (Some u).
Proof.
  rewrite log_in_run.
  destruct (list_find _ _) as [[i u]|] eqn:Hfind; [|done].
  apply list_find_Some in Hfind as (Hi & Hmail & _).
  destruct (verify_password _ _) eqn:Hpw; [|done]. cbn.
  destruct (User.is_banned u) eqn:Hban; [done|]. cbn.
  intros [= <-]. by exists i, u.
Qed.

Lemma log_in_banned_inv w form :
  (serve (log_in form) w).1 = Raise BannedUserException →
  ∃ i u, users (committed w) !! i = Some u
         ∧ User.email u = Str.lower (username form)
         ∧ verify_password (form_password form) (User.password u) = true
         ∧ User.is_banned u = true.
Proof.
  rewrite log_in_run.
  destruct (list_find _ _) as [[i u]|] eqn:Hfind; [|done].
  apply list_find_Some in Hfind as (Hi & Hmail & _).
  destruct (verify_password _ _) eqn:Hpw; [|done]. cbn.
  destruct (User.is_banned u) eqn:Hban; [|done]. cbn.
  intros _. by exists i, u.
Qed.

Lemma status_403_banned {A} (r : Result A) :
  status_code r = 403%Z → r = Raise BannedUserException.
Proof. by destruct r as [a|[]]. Qed.

End LogIn.




(** ** Logging out *)

Section LogOut.

Lemma revocations_absent db x :
  x ∉ UserRevokedToken.revoked_uuid <$> revoked_tokens db → revocations db x = 0.
Proof.
  unfold revocations. induction (revoked_tokens db) as [|tok l IH]; [done|].
  rewrite fmap_cons, not_elem_of_cons. intros [Hne Hnotin].
  rewrite filter_cons_False by done. by apply IH.
Qed.

Lemma revocations_app db x l :
  revocations (mkDatabase (users db) (revoked_tokens db ++ l)) x
  = revocations db x
    + length (filter (λ t, UserRevokedToken.revoked_uuid t = x) l).
Proof. unfold revocations. cbn. by rewrite filter_app, length_app. Qed.

Lemma log_out_valid w payload cur u exp jti :
  payload !! "exp" = Some (PyInt exp) →
  (min_timestamp ≤ exp ≤ max_timestamp)%Z →
  payload !! "jti" = Some (PyStr (UUID.hex jti)) →
  UUID.in_range jti →
  users (committed w) !! cur = Some u →
  serve (log_out payload cur) w =
  if revoked_uuid_is_key
     && bool_decide (jti ∈ UserRevokedToken.revoked_uuid
                           <$> revoked_tokens (committed w))
  then (Raise IntegrityError, idle 0 w)
  else (Ok (mkDetail "Token successfully revoked."),
        after_commit
          (mkDatabase (users (committed w))
             (revoked_tokens (committed w)
                ++ [UserRevokedToken.mk jti (User.id u) (DateTimeUTC exp)]))
          0 w).
Proof.
  intros Hexp Hrange Hjti Hin Hcur.
  by apply (log_out_run w payload cur u exp (UUID.hex jti) jti);
    [..|apply of_hex_hex|].
Qed.

End LogOut.

(** C3: for a valid token presented to [log_out] (its claims carry an
    integer [exp] and the hex form of its [jti], and the token is not yet
    revoked), the one row the handler commits to the revocation table has
    the token's [jti] as its token id, the authenticated user's id as its
    user id, and the instant [exp] (a UTC unix timestamp) as its expiry:
    the expiry is the token's own, whatever the clock says at logout. *)
Theorem log_out_records_presented_token w payload (cur : nat) u exp jti :
  payload !! "exp" = Some (PyInt exp) →
  (min_timestamp ≤ exp ≤ max_timestamp)%Z →
  payload !! "jti" = Some (PyStr (UUID.hex jti)) →
  UUID.in_range jti →
  users (committed w) !! cur = Some u →
  jti ∉ UserRevokedToken.revoked_uuid <$> revoked_tokens (committed w) →
  let r := serve (log_out payload cur) w in
  r.1 = Ok (mkDetail "Token successfully revoked.")
  ∧ revoked_tokens (committed r.2)
    = (revoked_tokens (committed w)
         ++ [UserRevokedToken.mk jti (User.id u) (DateTimeUTC exp)])%list
  ∧ users (committed r.2) = users (committed w)
  ∧ history r.2 = committed w :: history w.
Proof.
  intros Hexp Hrange Hjti Hin Hcur Hnew r. subst r.
  rewrite (log_out_valid _ _ _ _ _ _ Hexp Hrange Hjti Hin Hcur).
  rewrite (bool_decide_false _ Hnew), andb_false_r. done.
Qed.

(** C8, as the code has it: [log_out] inserts without looking.  Revoking a
    token id the table does not hold succeeds and leaves that id there
    exactly once.  Doing it again with the same token is not idempotent:
    where the table keys on the token id the second insert raises
    [IntegrityError] and the table keeps its one row; where it does not, the
    second insert succeeds and the table holds the id twice. *)
Theorem log_out_twice w payload (cur : nat) u exp jti :
  payload !! "exp" = Some (PyInt exp) →
  (min_timestamp ≤ exp ≤ max_timestamp)%Z →
  payload !! "jti" = Some (PyStr (UUID.hex jti)) →
  UUID.in_range jti →
  users (committed w) !! cur = Some u →
  jti ∉ UserRevokedToken.revoked_uuid <$> revoked_tokens (committed w) →
  let first := serve (log_out payload cur) w in
  let second := serve (log_out payload cur) first.2 in
  first.1 = Ok (mkDetail "Token successfully revoked.")
  ∧ revocations (committed first.2) jti = 1
  ∧ (revoked_uuid_is_key = true →
     second.1 = Raise IntegrityError
     ∧ committed second.2 = committed first.2
     ∧ revocations (committed second.2) jti = 1)
  ∧ (revoked_uuid_is_key = false →
     second.1 = Ok (mkDetail "Token successfully revoked.")
     ∧ revocations (committed second.2) jti = 2).
Proof.
  intros Hexp Hrange Hjti Hin Hcur Hnew first second. subst first second.
  rewrite (log_out_valid w _ _ _ _ _ Hexp Hrange Hjti Hin Hcur).
  rewrite (bool_decide_false _ Hnew), andb_false_r. cbn [fst snd].
  set (db1 := mkDatabase _ _).
  assert (revocations db1 jti = 1) as Hone.
  { unfold db1. rewrite revocations_app, revocations_absent by done. cbn.
    by rewrite decide_True. }
  assert (jti ∈ UserRevokedToken.revoked_uuid <$> revoked_tokens db1) as Hheld.
  { unfold db1. cbn. rewrite fmap_app. apply elem_of_app. right. cbn. by left. }
  rewrite (log_out_valid (after_commit db1 0 w) _ _ _ _ _ Hexp Hrange Hjti Hin)
    by done.
  cbn [committed after_commit].
  rewrite (bool_decide_true _ Hheld), andb_true_r.
  split_and!; [done|done|..]; intros ->; cbn [fst snd idle after_commit committed].
  - done.
  - split; [done|]. change (users (committed w)) with (users db1).
    rewrite revocations_app, Hone. cbn. by rewrite decide_True.
Qed.

(** ** Requesting a password reset *)

Section ResetRequest.

Lemma unique_emails_insert db i u u' :
  users db !! i = Some u → User.email u' = User.email u →
  unique_emails db →
  unique_emails (mkDatabase (<[i := u']> (users db)) (revoked_tokens db)).
Proof.
  unfold unique_emails. cbn. intros Hi Hmail Hnd.
  rewrite list_fmap_insert, list_insert_id; [done|].
  by rewrite list_lookup_fmap, Hi, Hmail.
Qed.

Lemma reset_request_found w data i u :
  unique_emails (committed w) →
  users (committed w) !! i = Some u →
  User.email u = Str.lower (data_email data) →
  User.is_banned u = false →
  serve (request_password_reset data) w =
  (if mailer w (length (outbox w))
   then Ok (mkDetail "A link to reset your password has been sent to your email!")
   else Raise (APIException
                 "Unable to send password reset email; please contact the site owner."),
   after_reset_request settings (Str.lower (data_email data)) i
     (User.set_reset_uuid (Some (entropy w (drawn w))) u) w).
Proof.
  intros Huniq Hi Hmail Hban. rewrite request_password_reset_run.
  rewrite (find_email _ _ _ _ Huniq Hi Hmail), Hban. cbn zeta.
  by destruct (mailer w _).
Qed.

Lemma reset_request_banned w data i u :
  unique_emails (committed w) →
  users (committed w) !! i = Some u →
  User.email u = Str.lower (data_email data) →
  User.is_banned u = true →
  serve (request_password_reset data) w = (Raise BannedUserException, idle 0 w).
Proof.
  intros Huniq Hi Hmail Hban. rewrite request_password_reset_run.
  by rewrite (find_email _ _ _ _ Huniq Hi Hmail), Hban.
Qed.

Lemma reset_request_unknown w data :
  (∀ v, v ∈ users (committed w) → User.email v ≠ Str.lower (data_email data)) →
  serve (request_password_reset data) w =
  (Raise (NotFoundException "No account found for email."), idle 0 w).
Proof.
  intros Hnone. rewrite request_password_reset_run.
  assert (list_find (λ u, User.email u = Str.lower (data_email data))
                    (users (committed w)) = None) as ->; [|done].
  by apply list_find_None, Forall_forall.
Qed.

Lemma reset_request_404_inv w data :
  status_code (serve (request_password_reset data) w).1 = 404%Z →
  ∀ v, v ∈ users (committed w) → User.email v ≠ Str.lower (data_email data).
Proof.
  rewrite request_password_reset_run.
  destruct (list_find _ _) as [[i u]|] eqn:Hfind.
  - destruct (User.is_banned u); [done|]. cbn zeta. by destruct (mailer w _).
  - intros _. apply list_find_None in Hfind.
    intros v Hv. by eapply Forall_forall in Hfind.
Qed.

Lemma reset_request_service_error_inv w data d :
  (serve (request_password_reset data) w).1 = Raise (APIException d) →
  d = "Unable to send password reset email; please contact the site owner."
  ∧ ∃ i u, users (committed w) !! i = Some u
           ∧ User.email u = Str.lower (data_email data)
           ∧ User.is_banned u = false.
Proof.
  rewrite request_password_reset_run.
  destruct (list_find _ _) as [[i u]|] eqn:Hfind; [|done].
  apply list_find_Some in Hfind as (Hi & Hmail & _).
  destruct (User.is_banned u) eqn:Hban; [done|]. cbn zeta.
  destruct (mailer w _); [done|]. intros [= <-]. split; [done|]. by exists i, u.
Qed.

Lemma lowercase_match db e :
  lowercase_emails db →
  (∀ v, v ∈ users db → Str.lower (User.email v) ≠ Str.lower e)
  ↔ (∀ v, v ∈ users db → User.email v ≠ Str.lower e).
Proof.
  unfold lowercase_emails. rewrite Forall_forall. intros Hlow.
  split; intros Hnone v Hv; specialize (Hnone v Hv); by rewrite Hlow in *.
Qed.

Lemma holder_None db x : holder db x = None ↔ unused_reset x db.
Proof.
  unfold holder, unused_reset. rewrite fmap_None. apply list_find_None.
Qed.

Lemma holder_Some db x i :
  holder db x = Some i →
  ∃ u, users db !! i = Some u ∧ User.reset_uuid u = Some x.
Proof.
  unfold holder. intros ([j u] & Hfind & ?)%fmap_Some. simplify_eq/=.
  apply list_find_Some in Hfind as (? & ? & _). eauto.
Qed.

Lemma holder_found db x i u :
  unique_resets db → users db !! i = Some u → User.reset_uuid u = Some x →
  holder db x = Some i.
Proof.
  intros Huniq Hi Hx. unfold holder. by rewrite (find_reset _ _ _ _ Huniq Hi Hx).
Qed.

(** The reset identifier is a single nullable column, so whatever the
    database, no row answers to two identifiers. *)
Lemma single_outstanding_holds db : single_outstanding db.
Proof.
  intros i x y (u & Hu & Hx)%holder_Some (v & Hv & Hy)%holder_Some. congruence.
Qed.

Lemma find_after_write (l : list User.t) i u' x :
  i < length l → User.reset_uuid u' = Some x →
  Forall (λ v, User.reset_uuid v ≠ Some x) l →
  list_find (λ v, User.reset_uuid v = Some x) (<[i := u']> l) = Some (i, u').
Proof.
  rewrite Forall_forall. intros Hlt Hx Hunused.
  apply find_unique; [by apply list_lookup_insert_eq|done|].
  intros j y Hj Hy. destruct (decide (i = j)) as [|Hne]; [done|].
  rewrite list_lookup_insert_ne in Hj by done.
  destruct (Hunused y); [by eapply list_elem_of_lookup_2|done].
Qed.

Lemma find_after_overwrite (l : list User.t) i u' x :
  User.reset_uuid u' ≠ Some x →
  Forall (λ v, User.reset_uuid v ≠ Some x) l →
  list_find (λ v, User.reset_uuid v = Some x) (<[i := u']> l) = None.
Proof. intros Hx Hunused. by apply list_find_None, Forall_insert. Qed.

End ResetRequest.




(** ** The constraints of the data model are kept *)

Section Constraints.

Lemma serve_map {A B} (handler : M A) (f : A → B) w :
  serve (out ← handler; mret (f out)) w
  = (match (serve handler w).1 with Ok a => Ok (f a) | Raise e => Raise e end,
     (serve handler w).2).
Proof.
  unfold serve, mbind, M_bind, mret, M_ret.
  by destruct (handler _) as [[a|e] w'].
Qed.

Lemma log_out_users w payload cur :
  users (committed (serve (log_out payload cur) w).2) = users (committed w).
Proof.
  destruct w as [db hist sess ent dr ml ob dl nw].
  unfold serve, log_out, fromtimestamp_utc, uuid_of_hex. unfold_monad. cbn.
  destruct (payload !! "exp") as [[| n | |]|]; cbn; try done.
  case_bool_decide; cbn; [|done].
  destruct (payload !! "jti") as [[| | s |]|]; cbn; try done.
  destruct (UUID.of_hex s); cbn; [|done].
  destruct (users db !! cur); cbn; [|done].
  by destruct (revoked_uuid_is_key && _).
Qed.

Lemma omap_insert_elem {A B} (f : A → option B) (l : list A) i a x :
  x ∈ omap f (<[i := a]> l) → f a = Some x ∨ x ∈ omap f l.
Proof.
  rewrite !list_elem_of_omap. intros (b & Hb & Hx).
  apply list_elem_of_lookup in Hb as [j Hj].
  apply list_lookup_insert_Some in Hj as [(-> & -> & _)|[_ Hj]]; [by left|].
  right. exists b. split; [by eapply list_elem_of_lookup_2|done].
Qed.

Lemma NoDup_omap_insert {A B} (f : A → option B) (l : list A) i a :
  (∀ x, f a = Some x → x ∉ omap f l) →
  NoDup (omap f l) → NoDup (omap f (<[i := a]> l)).
Proof.
  revert i. induction l as [|b l IH]; intros i Hnew Hnd; [done|].
  assert (NoDup (omap f l)) as Hnd'.
  { simpl in Hnd. destruct (f b); [by apply NoDup_cons in Hnd as [_ ?]|done]. }
  assert (∀ x, f a = Some x → x ∉ omap f l) as Hnew'.
  { intros x Hx Hin. apply (Hnew x Hx). simpl.
    destruct (f b); [by right|done]. }
  destruct i as [|i]; simpl.
  - destruct (f a) as [x|] eqn:Ha; [|done].
    apply NoDup_cons. split; [by apply Hnew'|done].
  - destruct (f b) as [y|] eqn:Hb; [|by apply IH].
    simpl in Hnd. rewrite Hb in Hnd. apply NoDup_cons in Hnd as [Hy _].
    apply NoDup_cons. split; [|by apply IH].
    intros [Ha|Hin]%omap_insert_elem; [|done].
    apply (Hnew y Ha). simpl. rewrite Hb. by left.
Qed.

Lemma unused_reset_omap x db :
  unused_reset x db ↔ x ∉ omap User.reset_uuid (users db).
Proof.
  unfold unused_reset. rewrite Forall_forall, list_elem_of_omap. split.
  - intros Hall (u & Hu & Hx). by apply (Hall u Hu).
  - intros Hnone u Hu Hx. apply Hnone. by exists u.
Qed.

Lemma lowercase_emails_insert db i u u' :
  users db !! i = Some u → User.email u' = User.email u →
  lowercase_emails db →
  lowercase_emails (mkDatabase (<[i := u']> (users db)) (revoked_tokens db)).
Proof.
  unfold lowercase_emails. cbn. intros Hi Hmail Hlow.
  apply Forall_insert; [done|]. rewrite Hmail.
  rewrite Forall_forall in Hlow. apply Hlow. by eapply list_elem_of_lookup_2.
Qed.

Lemma unique_resets_insert db i u' :
  (∀ x, User.reset_uuid u' = Some x → unused_reset x db) →
  unique_resets db →
  unique_resets (mkDatabase (<[i := u']> (users db)) (revoked_tokens db)).
Proof.
  unfold unique_resets. cbn. intros Hnew Hnd.
  apply NoDup_omap_insert; [|done].
  intros x Hx. by apply unused_reset_omap, Hnew.
Qed.

End Constraints.

(** X1: the constraints of the data model -- unique emails, stored in
    lowercase, and no reset identifier pending for two users -- survive
    every request, as long as the next UUID drawn is one no user holds. *)
Theorem handle_preserves_constraints req w :
  unique_emails (committed w) →
  lowercase_emails (committed w) →
  unique_resets (committed w) →
  unused_reset (entropy w (drawn w)) (committed w) →
  let db' := committed (handle req w).2 in
  unique_emails db' ∧ lowercase_emails db' ∧ unique_resets db'.
Proof.
  intros Hmails Hlow Hresets Hfresh db'. subst db'.
  destruct req as [form|payload cur|data|token data]; unfold handle;
    rewrite serve_map; cbn [snd].
  - rewrite log_in_run.
    destruct (list_find _ _) as [[i u]|]; [|done].
    by destruct (negb _), (User.is_banned u).
  - pose proof (log_out_users w payload cur) as Husers.
    unfold unique_emails, lowercase_emails, unique_resets. by rewrite Husers.
  - rewrite request_password_reset_run.
    destruct (list_find _ _) as [[i u]|] eqn:Hfind; [|done].
    apply list_find_Some in Hfind as (Hi & _ & _).
    destruct (User.is_banned u); [done|]. cbn zeta.
    assert (∀ r1 r2 w', (if mailer w (length (outbox w)) then (r1, w') else (r2, w')).2
                        = w') as -> by (intros; by destruct (mailer w _)).
    cbn [committed after_reset_request]. split_and!.
    + by eapply unique_emails_insert.
    + by eapply lowercase_emails_insert.
    + apply unique_resets_insert; [|done]. by intros x [= <-].
  - rewrite reset_password_run.
    destruct (list_find _ _) as [[i u]|] eqn:Hfind; [|done].
    apply list_find_Some in Hfind as (Hi & _ & _).
    cbn [snd committed after_commit]. split_and!.
    + by eapply unique_emails_insert.
    + by eapply lowercase_emails_insert.
    + by apply unique_resets_insert.
Qed.

(** X2: [log_in] writes nothing: whatever the form and the outcome, the
    database, its history, the outbox and the debug log are as before. *)
Theorem log_in_writes_nothing w form :
  let w' := (serve (log_in form) w).2 in
  committed w' = committed w ∧ history w' = history w
  ∧ outbox w' = outbox w ∧ debug_log w' = debug_log w.
Proof.
  cbn zeta. rewrite log_in_run.
  destruct (list_find _ _) as [[i u]|]; [|done].
  by destruct (negb _), (User.is_banned u).
Qed.



(** ** What the endpoints do and do not touch *)

Section Effects.

Lemma log_out_cases w payload cur :
  serve (log_out payload cur) w =
  match payload !! "exp" with
  | None => (Raise (KeyError "exp"), idle 0 w)
  | Some (PyInt n) =>
      if bool_decide (min_timestamp ≤ n ≤ max_timestamp)%Z
      then
        match payload !! "jti" with
        | None => (Raise (KeyError "jti"), idle 0 w)
        | Some (PyStr s) =>
            match UUID.of_hex s with
            | None => (Raise ValueError, idle 0 w)
            | Some jti =>
                match users (committed w) !! cur with
                | None => (Raise ObjectDeletedError, idle 0 w)
                | Some u =>
                    if revoked_uuid_is_key
                       && bool_decide (jti ∈ UserRevokedToken.revoked_uuid
                                             <$> revoked_tokens (committed w))
                    then (Raise IntegrityError, idle 0 w)
                    else (Ok (mkDetail "Token successfully revoked."),
                          after_commit
                            (mkDatabase (users (committed w))
                               (revoked_tokens (committed w)
                                  ++ [UserRevokedToken.mk jti (User.id u)
                                        (DateTimeUTC n)]))
                            0 w)
                end
            end
        | Some _ => (Raise TypeError, idle 0 w)
        end
      else (Raise ValueError, idle 0 w)
  | Some _ => (Raise TypeError, idle 0 w)
  end.
Proof.
  destruct w as [db hist sess ent dr ml ob dl nw].
  unfold serve, log_out, fromtimestamp_utc, uuid_of_hex. unfold_monad. cbn.
  destruct (payload !! "exp") as [[| n | |]|]; cbn; try done.
  case_bool_decide; cbn; [|done].
  destruct (payload !! "jti") as [[| | s |]|]; cbn; try done.
  destruct (UUID.of_hex s); cbn; [|done].
  destruct (users db !! cur); cbn; [|done].
  by destruct (revoked_uuid_is_key && _).
Qed.

Lemma ban_user_run w i u :
  users (committed w) !! i = Some u →
  serve (ban_user i) w =
  (Ok (), after_commit
            (mkDatabase (<[i := set_is_banned true u]> (users (committed w)))
                        (revoked_tokens (committed w))) 0 w).
Proof.
  intros Hi. destruct w as [db hist sess ent dr ml ob dl nw].
  unfold serve, ban_user. unfold_monad. cbn in *.
  by rewrite (alter_as_insert _ _ _ _ Hi).
Qed.

Lemma insert_lookup_cases (l : list User.t) i j u u' v :
  l !! i = Some u → l !! j = Some v →
  (i = j ∧ v = u ∧ <[i := u']> l !! j = Some u')
  ∨ (i ≠ j ∧ <[i := u']> l !! j = Some v).
Proof.
  intros Hi Hj. destruct (decide (i = j)) as [->|Hne].
  - left. split_and!; [done|congruence|].
    apply list_lookup_insert_eq. by eapply lookup_lt_Some.
  - right. by rewrite list_lookup_insert_ne.
Qed.

(** What [log_in] reads of the world: the user table, the next UUID and the
    clock. *)
Lemma log_in_reads w1 w2 form :
  users (committed w1) = users (committed w2) →
  entropy w1 (drawn w1) = entropy w2 (drawn w2) →
  now w1 = now w2 →
  (serve (log_in form) w1).1 = (serve (log_in form) w2).1.
Proof.
  intros Husers Hnext Hnow. rewrite !log_in_run, Husers.
  destruct (list_find _ _) as [[i u]|]; [|done].
  destruct (negb _); [done|]. destruct (User.is_banned u); [done|].
  cbn. unfold issued_token. by rewrite Hnext, Hnow.
Qed.

End Effects.


(** X6: every endpoint commits at most once per request: afterwards either
    the database and its history are as before, or the history has grown by
    exactly the previous state.  An endpoint that raises has committed
    nothing, with one exception: [request_password_reset] raising its
    delivery error, which comes after the commit. *)
Theorem handle_commits_at_most_once req w :
  let r := handle req w in
  ((committed r.2 = committed w ∧ history r.2 = history w)
   ∨ history r.2 = committed w :: history w)
  ∧ ∀ e, r.1 = Raise e →
         (committed r.2 = committed w ∧ history r.2 = history w)
         ∨ (e = APIException
                  "Unable to send password reset email; please contact the site owner."
            ∧ ∃ data, req = RequestPasswordReset data).
Proof.
  cbn zeta. destruct req as [form|payload cur|data|token data]; unfold handle;
    rewrite serve_map.
  - rewrite log_in_run. repeat case_match; cbn; (split; [by left|]);
      intros ? ?; by left.
  - rewrite log_out_cases.
    repeat case_match; cbn; (split; [by (left + right)|]);
      intros ? ?; (by left) || done.
  - rewrite request_password_reset_run.
    repeat case_match; cbn; (split; [by (left + right)|]);
      intros ? ?; simplify_eq/=; (by left) || (right; eauto).
  - rewrite reset_password_run.
    repeat case_match; cbn; (split; [by (left + right)|]);
      intros ? ?; (by left) || done.
Qed.









(** X14: [log_in] does not look at the table of revoked tokens: after any
    [log_out], whatever it did, a login is answered as it would have been
    without it. *)
Theorem log_out_leaves_log_in_alone w payload cur form :
  (serve (log_in form) (serve (log_out payload cur) w).2).1
  = (serve (log_in form) w).1.
Proof.
  apply log_in_reads.
  - apply log_out_users.
  - rewrite log_out_cases. by repeat case_match.
  - rewrite log_out_cases. by repeat case_match.
Qed.

End Views.

(** ** The demo deployment, worked through *)

Ltac by_computation := apply (bool_decide_unpack _); vm_compute; exact I.

Example lower_example :
  Str.lower "Ada.Lovelace@Example.COM" = "ada.lovelace@example.com".
Proof. reflexivity. Qed.

Example remove_example : Str.remove "urn:" "urn:uuid:12-34" = "uuid:12-34".
Proof. reflexivity. Qed.

Example of_hex_example :
  UUID.of_hex "{12345678-1234-5678-1234-567812345678}"
  = Some 0x12345678123456781234567812345678%N.
Proof. vm_compute. reflexivity. Qed.

Example hex_example :
  UUID.hex 0x12345678123456781234567812345678%N
  = "12345678123456781234567812345678".
Proof. vm_compute. reflexivity. Qed.

Example of_hex_upper_example :
  UUID.of_hex "URN:UUID:0000000000000000000000000000ABCD" = None
  ∧ UUID.of_hex "urn:uuid:0000000000000000000000000000ABCD" = Some 0xabcd%N
  ∧ UUID.of_hex "abcd" = None.
Proof. vm_compute. done. Qed.

Example uuid_str_example :
  uuid_str 0x12345678123456781234567812345678%N
  = "12345678-1234-5678-1234-567812345678".
Proof. vm_compute. reflexivity. Qed.

(** Carol redeems her pending identifier 99. *)
Lemma reset_password_redeems_witness :
  let r := serve (reset_password Demo.settings Demo.generate_password_hash
                    Demo.jwt_encode true 99%N (mkSetPasswordIn "new-secret"))
                 (Demo.world true) in
  r.1 = Ok (mkAuthTokenOut
              (issued_token Demo.settings Demo.jwt_encode (Demo.world true) Demo.carol)
              "bearer" None)
  ∧ status_code r.1 = 200%Z.
Proof.
  pose proof (reset_password_redeems Demo.settings Demo.generate_password_hash
                Demo.jwt_encode true (Demo.world true) 2 Demo.carol 99%N
                (mkSetPasswordIn "new-secret")) as H.
  cbn zeta in *. split; apply H; (by_computation || reflexivity).
Defined.

(** Bob is banned and redeems his pending identifier 77 all the same. *)
Lemma reset_password_ignores_ban_witness :
  (serve (reset_password Demo.settings Demo.generate_password_hash
            Demo.jwt_encode true 77%N (mkSetPasswordIn "new-secret"))
         (Demo.world true)).1
  ≠ Raise BannedUserException
  ∧ User.is_banned Demo.bob = true.
Proof.
  pose proof (reset_password_ignores_ban Demo.settings Demo.generate_password_hash
                Demo.jwt_encode true (Demo.world true) 1 Demo.bob 77%N
                (mkSetPasswordIn "new-secret")) as H.
  cbn zeta in *. split; [|reflexivity].
  apply H; (by_computation || reflexivity).
Defined.




(** Alice logs out with the token of [Demo.payload]. *)
Lemma log_out_records_presented_token_witness :
  revoked_tokens
    (committed (serve (log_out true Demo.payload 0) (Demo.world true)).2)
  = [UserRevokedToken.mk 5%N 1 (DateTimeUTC 1700086400)].
Proof.
  apply (log_out_records_presented_token true (Demo.world true) Demo.payload 0
           Demo.alice 1700086400 5%N);
    [ reflexivity | by_computation | reflexivity | reflexivity | reflexivity
    | by_computation ].
Defined.

(** The same logout, twice, against a table keyed on the token id. *)
Lemma log_out_twice_witness :
  let first := serve (log_out true Demo.payload 0) (Demo.world true) in
  revocations (committed first.2) 5%N = 1
  ∧ (serve (log_out true Demo.payload 0) first.2).1 = Raise IntegrityError.
Proof.
  pose proof (log_out_twice true (Demo.world true) Demo.payload 0
                Demo.alice 1700086400 5%N) as H.
  cbn zeta in *.
  destruct H as (_ & Hone & Hkey & _);
    [ reflexivity | by_computation | reflexivity | reflexivity | reflexivity
    | by_computation | ].
  split; [exact Hone | by apply Hkey].
Defined.






(** Against C8 as stated: the same logout twice.  Where the table keys on
    the token id the second call raises; where it does not, both calls
    succeed and the table then holds the token id twice. *)
Lemma second_revocation_not_idempotent :
  let once key := (serve (log_out key Demo.payload 0) (Demo.world true)).2 in
  let twice key := serve (log_out key Demo.payload 0) (once key) in
  (twice true).1 = Raise IntegrityError
  ∧ (twice false).1 = Ok (mkDetail "Token successfully revoked.")
  ∧ revocations (committed (twice false).2) 5%N = 2.
Proof. cbn zeta. split_and!; vm_compute; reflexivity. Qed.

(** Alice's reset request keeps the demo database well formed. *)
Lemma handle_preserves_constraints_witness :
  unique_resets
    (committed
       (handle Demo.settings Demo.verify_password Demo.generate_password_hash
          Demo.jwt_encode true
          (RequestPasswordReset (mkEmailIn "alice@example.com"))
          (Demo.world true)).2).
Proof.
  apply (handle_preserves_constraints Demo.settings Demo.verify_password
           Demo.generate_password_hash Demo.jwt_encode true
           (RequestPasswordReset (mkEmailIn "alice@example.com"))
           (Demo.world true));
    by_computation.
Defined.






